(** * tools/check_apk_alignment.py: alignment of native libraries in an APK

    A shallow embedding of the script [tools/check_apk_alignment.py] and
    the properties its specification states about it.

    The script is straight-line Python with one [for] loop.  It talks to
    the outside world through [sys.argv], [os.path.exists],
    [zipfile.ZipFile], the builtin [open] and [print], and [exit].  These
    are modelled by a small state-and-exception monad [Py] over a [world]
    that holds the file system, the two output streams and a trace of
    the accesses made so far. *)

From Stdlib Require Import ZArith List String Ascii Lia.
From Stdlib Require Import Strings.Byte DecimalString.
From stdpp Require Import base option gmap strings list.

Local Open Scope string_scope.
Local Open Scope Z_scope.
Local Open Scope list_scope.

(** ** Python values that reach [print] *)

Inductive value :=
| VStr (s : string)
| VInt (n : Z).

(** [str(v)]: a string prints as itself, an integer in decimal with a
    leading minus sign when negative. *)
Definition str (v : value) : string :=
  match v with
  | VStr s => s
  | VInt n => NilZero.string_of_int (Z.to_int n)
  end.

(** The text one [print(a, b, ...)] call writes, without the final
    newline: the arguments' [str], separated by one space. *)
Definition print_text (args : list value) : string :=
  String.concat " " (map str args).

(** ** The world *)

(** What [zipfile] records for an entry of the central directory; only
    the attributes the script reads. *)
Record ZipInfo := mkZipInfo {
  compress_type : Z;
  header_offset : Z;
  file_size : Z;
  compress_size : Z
}.

(** A path names a regular file with its bytes, or a directory. *)
Inductive node :=
| RegularFile (content : list byte)
| Directory.

(** Modes of the builtin [open]: ['rb'] reads, ['wb'] truncates. *)
Inductive open_mode := mode_rb | mode_wb.

(** What the script asks of the file system and of the archive object,
    in the order it happens. *)
Inductive event :=
| EvExists (path : string)
| EvZipFile (path : string)
| EvGetinfo (name : string)
| EvOpen (path : string) (mode : open_mode)
| EvSeek (path : string) (pos : Z)
| EvRead (path : string) (size : Z)
| EvClose (path : string).

Record world := mkWorld {
  fs : gmap string node;
  stdout : list (list value);
  stderr : list string;
  trace : list event
}.

Definition log (e : event) (w : world) : world :=
  mkWorld (fs w) (stdout w) (stderr w) (trace w ++ [e]).

(** ** Exceptions and the monad *)

Inductive exn :=
| KeyError
| BadZipFile
| FileNotFoundError
| IsADirectoryError
| OSError_EINVAL
| struct_error
| ValueError
| NotImplementedError
| UnicodeDecodeError.

(** How a piece of Python ends: with a value, by [exit(code)]
    ([SystemExit]) or by raising. *)
Inductive result (A : Type) :=
| Ok (a : A)
| SystemExit (code : Z)
| Raised (e : exn).
Arguments Ok {A} a.
Arguments SystemExit {A} code.
Arguments Raised {A} e.

Definition Py (A : Type) : Type := world -> result A * world.

Definition ret {A} (a : A) : Py A := fun w => (Ok a, w).

Definition bind {A B} (m : Py A) (k : A -> Py B) : Py B :=
  fun w =>
    match m w with
    | (Ok a, w') => k a w'
    | (SystemExit c, w') => (SystemExit c, w')
    | (Raised e, w') => (Raised e, w')
    end.

Declare Scope py_scope.
Delimit Scope py_scope with py.
Notation "x <- m ;; k" := (bind m (fun x => k))
  (at level 100, m at next level, right associativity) : py_scope.
Notation "m ;;; k" := (bind m (fun _ => k))
  (at level 100, right associativity) : py_scope.
Local Open Scope py_scope.

Definition raise {A} (e : exn) : Py A := fun w => (Raised e, w).

(** [exit(code)] *)
Definition exit {A} (code : Z) : Py A := fun w => (SystemExit code, w).

(** [try: m / except e: handler] for a single exception class. *)
Definition try_except {A} (m : Py A) (catches : exn -> bool) (handler : Py A)
  : Py A :=
  fun w =>
    match m w with
    | (Raised e, w') => if catches e then handler w' else (Raised e, w')
    | r => r
    end.

Definition is_KeyError (e : exn) : bool :=
  match e with KeyError => true | _ => false end.

(** ** Builtins and library calls *)

(** [print(a, b, ...)]: one more line on standard output. *)
Definition print (args : list value) : Py unit :=
  fun w => (Ok tt, mkWorld (fs w) (stdout w ++ [args]) (stderr w) (trace w)).

(** [os.path.exists(path)] *)
Definition os_path_exists (path : string) : Py bool :=
  fun w => (Ok (bool_decide (is_Some (fs w !! path))), log (EvExists path) w).

(** An open file object: the path it was opened on, its bytes and the
    current position. *)
Record file := mkFile {
  f_path : string;
  f_bytes : list byte;
  f_pos : Z
}.

(** [open(path, mode)].  Reading needs an existing regular file; writing
    creates or truncates it. *)
Definition builtin_open (path : string) (mode : open_mode) : Py file :=
  fun w =>
    let w := log (EvOpen path mode) w in
    match mode with
    | mode_rb =>
        match fs w !! path with
        | Some (RegularFile c) => (Ok (mkFile path c 0), w)
        | Some Directory => (Raised IsADirectoryError, w)
        | None => (Raised FileNotFoundError, w)
        end
    | mode_wb =>
        match fs w !! path with
        | Some Directory => (Raised IsADirectoryError, w)
        | _ =>
            (Ok (mkFile path [] 0),
             mkWorld (<[path := RegularFile []]> (fs w))
                     (stdout w) (stderr w) (trace w))
        end
    end.

Section Script.

(** The largest position the file system lets a seek go to past the end
    of a file; it depends on the file system the archive is on. *)
Variable seek_limit : Z.

(** Why [f.seek(pos)] fails on a file with these bytes, if it does.  A
    position inside the file or at its end is always accepted.  Outside
    the file, a position that does not fit the 64-bit signed offset of
    the operating system raises [ValueError]; a negative one, or one past
    [seek_limit], is refused by the operating system with [OSError]; any
    other position past the end is fine. *)
Definition seek_refusal (content : list byte) (pos : Z) : option exn :=
  if (0 <=? pos) && (pos <=? Z.of_nat (length content)) then None
  else if (pos <? - 2 ^ 63) || (2 ^ 63 <=? pos) then Some ValueError
  else if pos <? 0 then Some OSError_EINVAL
  else if seek_limit <? pos then Some OSError_EINVAL
  else None.

(** [f.seek(pos)], an absolute position. *)
Definition seek (f : file) (pos : Z) : Py file :=
  fun w =>
    let w := log (EvSeek (f_path f) pos) w in
    match seek_refusal (f_bytes f) pos with
    | Some e => (Raised e, w)
    | None => (Ok (mkFile (f_path f) (f_bytes f) pos), w)
    end.

(** The bytes [f.read(size)] returns: at most [size], fewer at the end of
    the file. *)
Definition bytes_at (content : list byte) (pos size : Z) : list byte :=
  take (Z.to_nat size) (drop (Z.to_nat pos) content).

Definition read (f : file) (size : Z) : Py (list byte * file) :=
  fun w =>
    let data := bytes_at (f_bytes f) (f_pos f) size in
    (Ok (data, mkFile (f_path f) (f_bytes f) (f_pos f + Z.of_nat (length data))),
     log (EvRead (f_path f) size) w).

(** [with open(path, mode) as f: body]: the file is closed on every way
    out of the body. *)
Definition with_open {A} (path : string) (mode : open_mode)
    (body : file -> Py A) : Py A :=
  f <- builtin_open path mode ;;
  fun w =>
    let '(r, w') := body f w in
    (r, log (EvClose path) w').

(** [struct.unpack_from('<H', buf, offset)[0]]: two bytes, little endian,
    unsigned; [struct.error] when the buffer is too short. *)
Definition unpack_from_H (buf : list byte) (offset : nat) : Py Z :=
  match buf !! offset, buf !! S offset with
  | Some lo, Some hi =>
      ret (Z.of_N (Byte.to_N lo) + 256 * Z.of_N (Byte.to_N hi))
  | _, _ => raise struct_error
  end.

(** Size of the end-of-central-directory record; [zipfile] rejects any
    file too short to hold one. *)
Definition sizeEndCentDir : Z := 22.

(** ** The script *)

(** What [zipfile] makes of the bytes of a file long enough to be an
    archive: the dictionary [NameToInfo] of its central directory, or
    [None] where it raises [BadZipFile].  The parser is Python's, not the
    script's, so it stays a parameter. *)
Variable central_directory : list byte -> option (gmap string ZipInfo).

(** The exception other than [BadZipFile] that [zipfile] raises while it
    loads a directory it has found, if it raises one: [NotImplementedError]
    for a version it does not support, [UnicodeDecodeError] for a name it
    cannot decode, and the like. *)
Variable directory_error : list byte -> option exn.

(** [zipfile.ZipFile(path)]: opens [path] for reading and loads the
    central directory. *)
Definition zipfile_ZipFile (path : string) : Py (gmap string ZipInfo) :=
  fun w =>
    let w := log (EvZipFile path) w in
    match fs w !! path with
    | None => (Raised FileNotFoundError, w)
    | Some Directory => (Raised IsADirectoryError, w)
    | Some (RegularFile c) =>
        if Z.of_nat (length c) <? sizeEndCentDir then (Raised BadZipFile, w)
        else
          match central_directory c with
          | Some d =>
              match directory_error c with
              | Some e => (Raised e, w)
              | None => (Ok d, w)
              end
          | None => (Raised BadZipFile, w)
          end
    end.

(** [z.getinfo(name)]: [KeyError] for a name the archive does not have. *)
Definition getinfo (z : gmap string ZipInfo) (name : string) : Py ZipInfo :=
  fun w =>
    let w := log (EvGetinfo name) w in
    match z !! name with
    | Some info => (Ok info, w)
    | None => (Raised KeyError, w)
    end.

(** Line 3: [sys.argv[1] if len(sys.argv) > 1 else '...'] *)
Definition default_apk : string := "app/build/outputs/apk/debug/app-debug.apk".

Definition apk_of (argv : list string) : string :=
  if 1 <? Z.of_nat (length argv) then default default_apk (argv !! 1%nat)
  else default_apk.

(** Line 10 *)
Definition libraries : list string :=
  ["lib/arm64-v8a/liboboe.so"; "lib/arm64-v8a/liboboe_synth.so"].

Definition usage : string :=
  String "010" "Usage: python tools/check_apk_alignment.py [path/to/app.apk]".

(** Lines 20-28, the [with] block.  [None] stands for the [continue] of
    line 25, [Some data_offset] for falling out of the block. *)
Definition local_data_offset (apk name : string) (info : ZipInfo)
  : Py (option Z) :=
  with_open apk mode_rb (fun f =>
    f <- seek f (header_offset info) ;;
    r <- read f 30 ;;
    let hdr := fst r in
    if Z.of_nat (length hdr) <? 30 then
      (print [VStr name; VStr "failed to read local header"] ;;;
       ret None)
    else
      (filename_len <- unpack_from_H hdr 26 ;;
       extra_len <- unpack_from_H hdr 28 ;;
       let data_offset := header_offset info + 30 + filename_len + extra_len in
       ret (Some data_offset))).

(** Lines 29-36 *)
Definition report (name : string) (info : ZipInfo) (data_offset : Z)
  : list (list value) :=
  [ [VStr name];
    [VStr "  compress_type:"; VInt (compress_type info);
     VStr "(0 = stored/uncompressed)"];
    [VStr "  header_offset:"; VInt (header_offset info)];
    [VStr "  data_offset  :"; VInt data_offset];
    [VStr "  data_offset % 16384 ="; VInt (data_offset mod 16384)];
    [VStr "  file_size    :"; VInt (file_size info)];
    [VStr "  compress_size:"; VInt (compress_size info)];
    [] ].

Fixpoint print_all (lines : list (list value)) : Py unit :=
  match lines with
  | [] => ret tt
  | l :: rest => (print l ;;; print_all rest)
  end.

(** Lines 14-36, the body of the loop for one name. *)
Definition check_library (apk : string) (z : gmap string ZipInfo)
    (name : string) : Py unit :=
  found <- try_except (info <- getinfo z name ;; ret (Some info))
             is_KeyError
             (print [VStr name; VStr "NOT FOUND"] ;;; ret None) ;;
  match found with
  | None => ret tt
  | Some info =>
      located <- local_data_offset apk name info ;;
      match located with
      | None => ret tt
      | Some data_offset => print_all (report name info data_offset)
      end
  end.

(** [for x in l: body] *)
Fixpoint for_each {A} (l : list A) (body : A -> Py unit) : Py unit :=
  match l with
  | [] => ret tt
  | x :: rest => (body x ;;; for_each rest body)
  end.

(** The whole script. *)
Definition main (argv : list string) : Py unit :=
  let apk := apk_of argv in
  present <- os_path_exists apk ;;
  (if negb present then
     (print [VStr "APK not found at"; VStr apk] ;;;
      print [VStr usage] ;;;
      exit 2)
   else ret tt) ;;;
  z <- zipfile_ZipFile apk ;;
  print [VStr "Checking:"; VStr apk] ;;;
  print [] ;;;
  for_each libraries (check_library apk z).

(** ** The interpreter around the script *)

Definition exn_name (e : exn) : string :=
  match e with
  | KeyError => "KeyError"
  | BadZipFile => "zipfile.BadZipFile"
  | FileNotFoundError => "FileNotFoundError"
  | IsADirectoryError => "IsADirectoryError"
  | OSError_EINVAL => "OSError"
  | struct_error => "struct.error"
  | ValueError => "ValueError"
  | NotImplementedError => "NotImplementedError"
  | UnicodeDecodeError => "UnicodeDecodeError"
  end.

(** Running the script as a process: exit status and final world.  Falling
    off the end gives status 0, [exit(code)] gives [code], and an exception
    nobody caught makes the interpreter write a traceback to standard error
    and exit with status 1. *)
Definition python (argv : list string) (w : world) : Z * world :=
  match main argv w with
  | (Ok _, w') => (0, w')
  | (SystemExit code, w') => (code, w')
  | (Raised e, w') =>
      (1, mkWorld (fs w') (stdout w') (stderr w' ++ [exn_name e]) (trace w'))
  end.

Definition exit_status (argv : list string) (w : world) : Z :=
  fst (python argv w).

Definition final (argv : list string) (w : world) : world :=
  snd (python argv w).

(** ** Vocabulary of the specification *)

(** A little-endian unsigned integer, as the zip format stores its
    fields: the first byte is the least significant one. *)
Definition le_uint (bs : list byte) : Z :=
  foldr (fun b acc => Z.of_N (Byte.to_N b) + 256 * acc) 0 bs.

(** The field of [width] bytes at offset [off] of the local file header
    that sits at [header] in the archive. *)
Definition header_field (archive : list byte) (header off width : Z) : Z :=
  le_uint (bytes_at archive (header + off) width).

Definition filename_length (archive : list byte) (header : Z) : Z :=
  header_field archive header 26 2.

Definition extra_length (archive : list byte) (header : Z) : Z :=
  header_field archive header 28 2.

(** How many bytes can be read at [pos]. *)
Definition readable (archive : list byte) (pos : Z) : Z :=
  Z.of_nat (length (drop (Z.to_nat pos) archive)).

(** The file is an archive [zipfile] accepts, with directory [z]. *)
Definition readable_zip (archive : list byte) (z : gmap string ZipInfo) : Prop :=
  sizeEndCentDir <= Z.of_nat (length archive) /\
  central_directory archive = Some z /\
  directory_error archive = None.

(** What one name of [libraries] adds to standard output, told without
    the monad. *)
Definition entry_lines (archive : list byte) (z : gmap string ZipInfo)
    (name : string) : list (list value) :=
  match z !! name with
  | None => [[VStr name; VStr "NOT FOUND"]]
  | Some info =>
      let h := header_offset info in
      if readable archive h <? 30 then
        [[VStr name; VStr "failed to read local header"]]
      else
        report name info
          (h + 30 + filename_length archive h + extra_length archive h)
  end.

(** The world after more output and more events, nothing else changed. *)
Definition extend (w : world) (out : list (list value)) (t : list event)
  : world :=
  mkWorld (fs w) (stdout w ++ out) (stderr w) (trace w ++ t).

(** The events of reading the local header of [info]. *)
Definition header_read (apk : string) (info : ZipInfo) : list event :=
  [EvOpen apk mode_rb; EvSeek apk (header_offset info); EvRead apk 30;
   EvClose apk].

(** The events one name of [libraries] adds when its header can be sought. *)
Definition entry_events (apk : string) (z : gmap string ZipInfo)
    (name : string) : list event :=
  match z !! name with
  | None => [EvGetinfo name]
  | Some info => EvGetinfo name :: header_read apk info
  end.

(** [f.seek] accepts the header offset of every entry called one of
    [names] that the directory has. *)
Definition offsets_seekable (archive : list byte) (z : gmap string ZipInfo)
    (names : list string) : Prop :=
  forall name info,
    name ∈ names -> z !! name = Some info ->
    seek_refusal archive (header_offset info) = None.

(** Events that leave the file system as it is. *)
Definition read_only (e : event) : Prop :=
  match e with
  | EvOpen _ mode_wb => False
  | _ => True
  end.

(** The entry names looked up, in order. *)
Definition lookups (t : list event) : list string :=
  omap (fun e => match e with EvGetinfo n => Some n | _ => None end) t.

(** ** The ways a run can go *)

(** What one iteration of the loop does on an archive with bytes [c]:
    how it ends, what it prints, which events it adds. *)
Inductive iteration (apk : string) (c : list byte) (z : gmap string ZipInfo)
    (name : string) : result unit -> list (list value) -> list event -> Prop :=
| iteration_missing :
    z !! name = None ->
    iteration apk c z name (Ok tt)
      [[VStr name; VStr "NOT FOUND"]] [EvGetinfo name]
| iteration_unseekable info e :
    z !! name = Some info ->
    seek_refusal c (header_offset info) = Some e ->
    iteration apk c z name (Raised e) []
      [EvGetinfo name; EvOpen apk mode_rb; EvSeek apk (header_offset info);
       EvClose apk]
| iteration_truncated info :
    z !! name = Some info ->
    seek_refusal c (header_offset info) = None ->
    readable c (header_offset info) < 30 ->
    iteration apk c z name (Ok tt)
      [[VStr name; VStr "failed to read local header"]]
      (EvGetinfo name :: header_read apk info)
| iteration_located info :
    z !! name = Some info ->
    seek_refusal c (header_offset info) = None ->
    30 <= readable c (header_offset info) ->
    iteration apk c z name (Ok tt)
      (report name info
         (header_offset info + 30
          + filename_length c (header_offset info)
          + extra_length c (header_offset info)))
      (EvGetinfo name :: header_read apk info).

(** The loop over a list of names: it stops at the first iteration that
    raises. *)
Inductive iterations (apk : string) (c : list byte) (z : gmap string ZipInfo)
  : list string -> result unit -> list (list value) -> list event -> Prop :=
| iterations_done :
    iterations apk c z [] (Ok tt) [] []
| iterations_next name rest out t r out' t' :
    iteration apk c z name (Ok tt) out t ->
    iterations apk c z rest r out' t' ->
    iterations apk c z (name :: rest) r (out ++ out') (t ++ t')
| iterations_raised name rest e out t :
    iteration apk c z name (Raised e) out t ->
    iterations apk c z (name :: rest) (Raised e) out t.

(** The script as a whole, from the state of the path it is given. *)
Inductive run (argv : list string) (w : world)
  : result unit -> list (list value) -> list event -> Prop :=
| run_missing :
    fs w !! apk_of argv = None ->
    run argv w (SystemExit 2)
      [[VStr "APK not found at"; VStr (apk_of argv)]; [VStr usage]]
      [EvExists (apk_of argv)]
| run_directory :
    fs w !! apk_of argv = Some Directory ->
    run argv w (Raised IsADirectoryError) []
      [EvExists (apk_of argv); EvZipFile (apk_of argv)]
| run_not_zip c :
    fs w !! apk_of argv = Some (RegularFile c) ->
    Z.of_nat (length c) < sizeEndCentDir \/ central_directory c = None ->
    run argv w (Raised BadZipFile) []
      [EvExists (apk_of argv); EvZipFile (apk_of argv)]
| run_unusable c z e :
    fs w !! apk_of argv = Some (RegularFile c) ->
    sizeEndCentDir <= Z.of_nat (length c) ->
    central_directory c = Some z ->
    directory_error c = Some e ->
    run argv w (Raised e) []
      [EvExists (apk_of argv); EvZipFile (apk_of argv)]
| run_loop c z r out t :
    fs w !! apk_of argv = Some (RegularFile c) ->
    readable_zip c z ->
    iterations (apk_of argv) c z libraries r out t ->
    run argv w r
      ([[VStr "Checking:"; VStr (apk_of argv)]; []] ++ out)
      ([EvExists (apk_of argv); EvZipFile (apk_of argv)] ++ t).

(** The paths given to [open], and the paths closed, in order. *)
Definition opened (t : list event) : list string :=
  omap (fun e => match e with EvOpen p _ => Some p | _ => None end) t.

Definition closed (t : list event) : list string :=
  omap (fun e => match e with EvClose p => Some p | _ => None end) t.

(** The path an event is about; a lookup in the directory is about none. *)
Definition path_of (e : event) : option string :=
  match e with
  | EvGetinfo _ => None
  | EvExists p | EvZipFile p | EvOpen p _ | EvSeek p _ | EvRead p _
  | EvClose p => Some p
  end.

(** The event is about the path [apk] or about no path. *)
Definition about (apk : string) (e : event) : Prop :=
  path_of e = None \/ path_of e = Some apk.

(** ** Sample archives *)

(** A local file header: signature, version, flags, method, time, date,
    CRC, the two sizes, then the lengths of the name and of the extra
    field. *)
Definition local_header (name_len extra_len : byte) : list byte :=
  [x50; x4b; x03; x04; x14; x00; x00; x00; x00; x00]
  ++ replicate 16 x00 ++ [name_len; x00; extra_len; x00].

(** The archive without entries: an end-of-central-directory record and
    nothing else. *)
Definition empty_archive : list byte :=
  [x50; x4b; x05; x06] ++ replicate 18 x00.

(** Two stored entries. [liboboe.so] sits at offset 0 with a 24-byte name,
    2 bytes of extra field and 8 bytes of data; [liboboe_synth.so] follows
    at offset 64 with a 30-byte name, no extra field and 4 bytes of data.
    The file ends with a 22-byte end record; what [zipfile] reads out of
    the directory is given apart, by [sample_directory]. *)
Definition sample_archive : list byte :=
  local_header x18 x02
  ++ list_byte_of_string "lib/arm64-v8a/liboboe.so"
  ++ [x00; x00] ++ replicate 8 x41
  ++ local_header x1e x00
  ++ list_byte_of_string "lib/arm64-v8a/liboboe_synth.so"
  ++ replicate 4 x42
  ++ empty_archive.

Definition info_oboe : ZipInfo := mkZipInfo 0 0 8 8.
Definition info_synth : ZipInfo := mkZipInfo 0 64 4 4.

Definition sample_directory : gmap string ZipInfo :=
  {[ "lib/arm64-v8a/liboboe.so" := info_oboe;
     "lib/arm64-v8a/liboboe_synth.so" := info_synth ]}.



(** A [zipfile] that reads the directory [z] out of whatever it is given. *)
Definition zipfile_of (z : gmap string ZipInfo)
  : list byte -> option (gmap string ZipInfo) :=
  fun _ => Some z.

(** A world with one regular file at the default path and nothing said
    or done yet. *)
Definition world_with (content : list byte) : world :=
  mkWorld {[ default_apk := RegularFile content ]} [] [] [].

(** A world without files. *)
Definition empty_world : world := mkWorld ∅ [] [] [].

(** A seek limit of 16 TiB, and a [zipfile] that raises nothing but
    [BadZipFile]. *)
Definition sample_seek_limit : Z := 2 ^ 44.

Definition no_directory_error : list byte -> option exn := fun _ => None.

(** A directory whose first entry is recorded, in a 64-bit field, at an
    offset that fits no signed 64-bit integer. *)
Definition info_huge : ZipInfo := mkZipInfo 0 (2 ^ 63) 8 8.

Definition huge_directory : gmap string ZipInfo :=
  {[ "lib/arm64-v8a/liboboe.so" := info_huge;
     "lib/arm64-v8a/liboboe_synth.so" := info_synth ]}.

(** A directory that has only the second library. *)
Definition synth_directory : gmap string ZipInfo :=
  {[ "lib/arm64-v8a/liboboe_synth.so" := info_synth ]}.

(** A directory at the default path instead of a file. *)
Definition directory_world : world :=
  mkWorld {[ default_apk := Directory ]} [] [] [].

(** A directory whose second entry is recorded 4 bytes before the start of
    the file. *)
Definition info_before : ZipInfo := mkZipInfo 0 (-4) 4 4.

Definition shifted_directory : gmap string ZipInfo :=
  {[ "lib/arm64-v8a/liboboe.so" := info_oboe;
     "lib/arm64-v8a/liboboe_synth.so" := info_before ]}.

(** [sample_archive] behind 16328 bytes of padding: the data of
    [liboboe.so] then starts at 16328 + 56 = 16384. *)
Definition aligned_archive : list byte :=
  replicate (Z.to_nat 16328) x00 ++ sample_archive.

Definition info_aligned : ZipInfo := mkZipInfo 0 16328 8 8.

(** [sample_archive] with the first 26 bytes of its first header, the
    signature among them, wiped. *)
Definition wiped_archive : list byte :=
  replicate 26 x00 ++ drop 26 sample_archive.

(** ** Bytes *)

Lemma length_bytes_at (c : list byte) (pos size : Z) :
  length (bytes_at c pos size)
  = Nat.min (Z.to_nat size) (length c - Z.to_nat pos).
Proof. unfold bytes_at. by rewrite length_take, length_drop. Qed.

Lemma bytes_at_short (c : list byte) (pos : Z) :
  0 <= pos ->
  (Z.of_nat (length (bytes_at c pos 30)) <? 30) = (readable c pos <? 30).
Proof.
  intros Hpos. unfold readable. rewrite length_bytes_at, length_drop.
  destruct (Z.ltb_spec (Z.of_nat (length c - Z.to_nat pos)) 30);
    destruct (Z.ltb_spec
                (Z.of_nat (Nat.min (Z.to_nat 30) (length c - Z.to_nat pos))) 30);
    lia.
Qed.

Lemma lookup_bytes_at (c : list byte) (pos : Z) (i : nat) :
  (i < 30)%nat ->
  bytes_at c pos 30 !! i = c !! (Z.to_nat pos + i)%nat.
Proof.
  intros Hi. unfold bytes_at.
  rewrite lookup_take_lt by (change (Z.to_nat 30) with 30%nat; lia).
  by rewrite lookup_drop.
Qed.

Lemma to_N_byte_bound (b : byte) : 0 <= Z.of_N (Byte.to_N b) < 256.
Proof. pose proof (Byte.to_N_bounded b). lia. Qed.

Lemma le_uint_nonneg (bs : list byte) : 0 <= le_uint bs.
Proof.
  induction bs as [|b bs IH]; simpl; [lia|].
  pose proof (to_N_byte_bound b). lia.
Qed.

(** The two-byte read of [struct] on the header agrees with the field of
    the archive, when the whole header was there to read. *)
Lemma unpack_from_H_field (c : list byte) (pos : Z) (k : nat) (w : world) :
  0 <= pos -> (S k < 30)%nat ->
  length (bytes_at c pos 30) = 30%nat ->
  unpack_from_H (bytes_at c pos 30) k w
  = (Ok (header_field c pos (Z.of_nat k) 2), w).
Proof.
  intros Hpos Hk Hlen. unfold unpack_from_H.
  destruct (bytes_at c pos 30 !! k) as [lo|] eqn:Hlo.
  2: { apply lookup_ge_None in Hlo. lia. }
  destruct (bytes_at c pos 30 !! S k) as [hi|] eqn:Hhi.
  2: { apply lookup_ge_None in Hhi. lia. }
  rewrite lookup_bytes_at in Hlo by lia.
  rewrite lookup_bytes_at in Hhi by lia.
  unfold ret, header_field, bytes_at.
  replace (Z.to_nat (pos + Z.of_nat k)) with (Z.to_nat pos + k)%nat by lia.
  rewrite (drop_S _ _ _ Hlo).
  replace (S (Z.to_nat pos + k)) with (Z.to_nat pos + S k)%nat in * by lia.
  rewrite (drop_S _ _ _ Hhi).
  change (Z.to_nat 2) with 2%nat. simpl. do 2 f_equal. lia.
Qed.

(** ** Seeking *)

Lemma seek_refusal_inside (c : list byte) (pos : Z) :
  0 <= pos -> pos <= Z.of_nat (length c) -> seek_refusal c pos = None.
Proof.
  intros H0 H1. unfold seek_refusal.
  destruct (Z.leb_spec 0 pos); [|lia].
  by destruct (Z.leb_spec pos (Z.of_nat (length c))); [|lia].
Qed.

Lemma seek_refusal_None_nonneg (c : list byte) (pos : Z) :
  seek_refusal c pos = None -> 0 <= pos.
Proof.
  unfold seek_refusal.
  destruct (Z.leb_spec 0 pos); [done|]. simpl.
  destruct (_ || _); [done|].
  by destruct (Z.ltb_spec pos 0); [|lia].
Qed.

(** What [seek_refusal] says, in one piece. *)
Lemma seek_refusal_None (c : list byte) (pos : Z) :
  seek_refusal c pos = None
  <-> 0 <= pos /\
      (pos <= Z.of_nat (length c) \/ (pos < 2 ^ 63 /\ pos <= seek_limit)).
Proof.
  unfold seek_refusal.
  destruct (Z.leb_spec 0 pos); simpl.
  2: { split; [|lia]. destruct (_ || _); [done|].
       by destruct (Z.ltb_spec pos 0); [|lia]. }
  destruct (Z.leb_spec pos (Z.of_nat (length c))); simpl; [split; [lia|done]|].
  destruct (Z.ltb_spec pos (- 2 ^ 63)); [lia|]. simpl.
  destruct (Z.leb_spec (2 ^ 63) pos); simpl; [split; [done|lia]|].
  destruct (Z.ltb_spec pos 0); [lia|].
  destruct (Z.ltb_spec seek_limit pos); [split; [done|lia]|].
  split; [lia|done].
Qed.

Lemma seek_refusal_negative (c : list byte) (pos : Z) :
  - 2 ^ 63 <= pos < 0 -> seek_refusal c pos = Some OSError_EINVAL.
Proof.
  intros H. unfold seek_refusal.
  destruct (Z.leb_spec 0 pos); [lia|]. simpl.
  destruct (Z.ltb_spec pos (- 2 ^ 63)); [lia|]. simpl.
  destruct (Z.leb_spec (2 ^ 63) pos); [lia|]. simpl.
  by destruct (Z.ltb_spec pos 0); [|lia].
Qed.

(** ** Running the pieces *)

Lemma extend_extend w o1 t1 o2 t2 :
  extend (extend w o1 t1) o2 t2 = extend w (o1 ++ o2) (t1 ++ t2).
Proof. unfold extend; simpl. by rewrite !app_assoc. Qed.

Lemma extend_nil w : extend w [] [] = w.
Proof. destruct w. unfold extend; simpl. by rewrite !app_nil_r. Qed.

Lemma bind_Ok {A B} (m : Py A) (k : A -> Py B) w a w' :
  m w = (Ok a, w') -> bind m k w = k a w'.
Proof. intros H. unfold bind. by rewrite H. Qed.

Lemma bind_Raised {A B} (m : Py A) (k : A -> Py B) w e w' :
  m w = (Raised e, w') -> bind m k w = (Raised e, w').
Proof. intros H. unfold bind. by rewrite H. Qed.

Ltac same_world :=
  unfold extend, log; simpl; f_equal;
  rewrite <- ?app_assoc, ?app_nil_r; reflexivity.

Lemma print_all_run (lines : list (list value)) (w : world) :
  print_all lines w = (Ok tt, extend w lines []).
Proof.
  revert w. induction lines as [|l lines IH]; intros w; simpl.
  - unfold ret. by rewrite extend_nil.
  - unfold bind, print. rewrite IH. f_equal. same_world.
Qed.

(** *** The [with] block, case by case *)

(** [open] raises: nothing to read the header from. *)
Lemma local_data_offset_unopened apk name info w :
  (forall c, fs w !! apk <> Some (RegularFile c)) ->
  exists e,
    local_data_offset apk name info w
    = (Raised e, extend w [] [EvOpen apk mode_rb]).
Proof.
  intros Hfs. unfold local_data_offset, with_open, builtin_open, bind.
  simpl. destruct (fs w !! apk) as [[c|]|] eqn:E.
  - by destruct (Hfs c).
  - eexists. f_equal. same_world.
  - eexists. f_equal. same_world.
Qed.

(** [f.seek] raises; the [with] block still closes the file. *)
Lemma local_data_offset_refused apk name info c e w :
  fs w !! apk = Some (RegularFile c) ->
  seek_refusal c (header_offset info) = Some e ->
  local_data_offset apk name info w
  = (Raised e,
     extend w [] [EvOpen apk mode_rb; EvSeek apk (header_offset info);
                  EvClose apk]).
Proof.
  intros Hfs Hseek. unfold local_data_offset, with_open, builtin_open, seek, bind.
  simpl. rewrite Hfs. simpl. rewrite Hseek.
  f_equal. same_world.
Qed.

(** Fewer than 30 bytes at the header: line 24, then [continue]. *)
Lemma local_data_offset_truncated apk name info c w :
  fs w !! apk = Some (RegularFile c) ->
  seek_refusal c (header_offset info) = None ->
  readable c (header_offset info) < 30 ->
  local_data_offset apk name info w
  = (Ok None,
     extend w [[VStr name; VStr "failed to read local header"]]
       (header_read apk info)).
Proof.
  intros Hfs Hseek Hshort.
  pose proof (seek_refusal_None_nonneg _ _ Hseek) as Hpos.
  unfold local_data_offset, with_open, builtin_open, seek, read, bind,
    print, ret.
  simpl. rewrite Hfs. simpl. rewrite Hseek. simpl.
  rewrite bytes_at_short by done.
  destruct (Z.ltb_spec (readable c (header_offset info)) 30); [|lia].
  f_equal. same_world.
Qed.

(** The whole header is there: lines 26-28. *)
Lemma local_data_offset_located apk name info c w :
  fs w !! apk = Some (RegularFile c) ->
  0 <= header_offset info ->
  30 <= readable c (header_offset info) ->
  local_data_offset apk name info w
  = (Ok (Some (header_offset info + 30
               + filename_length c (header_offset info)
               + extra_length c (header_offset info))),
     extend w [] (header_read apk info)).
Proof.
  intros Hfs Hpos Hfull.
  assert (Hlen : length (bytes_at c (header_offset info) 30) = 30%nat).
  { unfold readable in Hfull. rewrite length_bytes_at.
    rewrite length_drop in Hfull. lia. }
  assert (Hseek : seek_refusal c (header_offset info) = None).
  { apply seek_refusal_inside; [done|].
    unfold readable in Hfull. rewrite length_drop in Hfull. lia. }
  unfold local_data_offset, with_open, builtin_open, seek, read, bind.
  simpl. rewrite Hfs. simpl. rewrite Hseek. simpl.
  rewrite bytes_at_short by done.
  destruct (Z.ltb_spec (readable c (header_offset info)) 30); [lia|].
  rewrite (unpack_from_H_field c _ 26) by (done || lia).
  rewrite (unpack_from_H_field c _ 28) by (done || lia).
  unfold ret, filename_length, extra_length. simpl. f_equal. same_world.
Qed.

(** A data offset is computed only in the last of these cases. *)
Lemma local_data_offset_computed apk name info w d w' :
  local_data_offset apk name info w = (Ok (Some d), w') ->
  exists c,
    fs w !! apk = Some (RegularFile c) /\
    0 <= header_offset info /\
    30 <= readable c (header_offset info) /\
    d = header_offset info + 30
        + filename_length c (header_offset info)
        + extra_length c (header_offset info).
Proof.
  intros Hrun.
  destruct (fs w !! apk) as [[c|]|] eqn:Hfs.
  - exists c.
    destruct (seek_refusal c (header_offset info)) as [e|] eqn:Hseek.
    { by rewrite (local_data_offset_refused _ _ _ c e) in Hrun. }
    pose proof (seek_refusal_None_nonneg _ _ Hseek) as Hpos.
    destruct (Z.lt_ge_cases (readable c (header_offset info)) 30).
    { by rewrite (local_data_offset_truncated _ _ _ c) in Hrun. }
    rewrite (local_data_offset_located _ _ _ c) in Hrun by done.
    repeat split; try done. congruence.
  - destruct (local_data_offset_unopened apk name info w) as [e He].
    { intros c. by rewrite Hfs. }
    congruence.
  - destruct (local_data_offset_unopened apk name info w) as [e He].
    { intros c. by rewrite Hfs. }
    congruence.
Qed.

(** *** The loop body, case by case *)

(** The lookup of line 15 with its handler. *)
Lemma lookup_found (z : gmap string ZipInfo) name info w :
  z !! name = Some info ->
  try_except (bind (getinfo z name) (fun info => ret (Some info)))
    is_KeyError
    (bind (print [VStr name; VStr "NOT FOUND"]) (fun _ => ret None)) w
  = (Ok (Some info), extend w [] [EvGetinfo name]).
Proof.
  intros Hz. unfold try_except, bind, getinfo, ret. rewrite Hz.
  f_equal. same_world.
Qed.

(** A name the archive does not have: line 17, then [continue]. *)
Lemma check_library_missing apk (z : gmap string ZipInfo) name w :
  z !! name = None ->
  check_library apk z name w
  = (Ok tt, extend w [[VStr name; VStr "NOT FOUND"]] [EvGetinfo name]).
Proof.
  intros Hz. unfold check_library, bind, try_except, getinfo, print, ret.
  rewrite Hz. simpl. f_equal.
Qed.

(** The [with] block raises, and so does the iteration. *)
Lemma check_library_raised apk (z : gmap string ZipInfo) name info w e w' :
  z !! name = Some info ->
  local_data_offset apk name info (extend w [] [EvGetinfo name])
  = (Raised e, w') ->
  check_library apk z name w = (Raised e, w').
Proof.
  intros Hz Hrun. unfold check_library.
  rewrite (bind_Ok _ _ _ _ _ (lookup_found z name info w Hz)).
  by rewrite (bind_Raised _ _ _ _ _ Hrun).
Qed.

Lemma check_library_refused apk (z : gmap string ZipInfo) name info c e w :
  fs w !! apk = Some (RegularFile c) ->
  z !! name = Some info ->
  seek_refusal c (header_offset info) = Some e ->
  check_library apk z name w
  = (Raised e,
     extend w [] [EvGetinfo name; EvOpen apk mode_rb;
                  EvSeek apk (header_offset info); EvClose apk]).
Proof.
  intros Hfs Hz Hseek.
  rewrite (check_library_raised apk z name info w e
             (extend (extend w [] [EvGetinfo name]) []
                [EvOpen apk mode_rb; EvSeek apk (header_offset info);
                 EvClose apk])); [|done|].
  - by rewrite extend_extend.
  - by apply (local_data_offset_refused _ _ _ c).
Qed.

Lemma check_library_truncated apk (z : gmap string ZipInfo) name info c w :
  fs w !! apk = Some (RegularFile c) ->
  z !! name = Some info ->
  seek_refusal c (header_offset info) = None ->
  readable c (header_offset info) < 30 ->
  check_library apk z name w
  = (Ok tt,
     extend w [[VStr name; VStr "failed to read local header"]]
       (EvGetinfo name :: header_read apk info)).
Proof.
  intros Hfs Hz Hseek Hshort. unfold check_library.
  rewrite (bind_Ok _ _ _ _ _ (lookup_found z name info w Hz)).
  erewrite bind_Ok by (by apply (local_data_offset_truncated _ _ _ c)).
  by rewrite extend_extend.
Qed.

Lemma check_library_located apk (z : gmap string ZipInfo) name info c w :
  fs w !! apk = Some (RegularFile c) ->
  z !! name = Some info ->
  0 <= header_offset info ->
  30 <= readable c (header_offset info) ->
  check_library apk z name w
  = (Ok tt,
     extend w
       (report name info
          (header_offset info + 30
           + filename_length c (header_offset info)
           + extra_length c (header_offset info)))
       (EvGetinfo name :: header_read apk info)).
Proof.
  intros Hfs Hz Hpos Hfull. unfold check_library.
  rewrite (bind_Ok _ _ _ _ _ (lookup_found z name info w Hz)).
  erewrite bind_Ok by (by apply (local_data_offset_located _ _ _ c)).
  cbv beta iota. by rewrite print_all_run, !extend_extend.
Qed.

(** An iteration that ends normally hands over to the next name. *)
Lemma for_each_next {A} (body : A -> Py unit) x l w w' :
  body x w = (Ok tt, w') ->
  for_each (x :: l) body w = for_each l body w'.
Proof. intros H. simpl. unfold bind. by rewrite H. Qed.

Lemma for_each_raised {A} (body : A -> Py unit) x l w e w' :
  body x w = (Raised e, w') ->
  for_each (x :: l) body w = (Raised e, w').
Proof. intros H. simpl. unfold bind. by rewrite H. Qed.

(** ** Running the script *)

(** Lines 4-7: no file at the path. *)
Lemma main_missing argv w :
  fs w !! apk_of argv = None ->
  main argv w
  = (SystemExit 2,
     extend w [[VStr "APK not found at"; VStr (apk_of argv)]; [VStr usage]]
       [EvExists (apk_of argv)]).
Proof.
  intros H. unfold main, bind, os_path_exists, print, exit. simpl.
  rewrite H. simpl. f_equal. same_world.
Qed.

(** Line 9 raises: the path is a directory. *)
Lemma main_directory argv w :
  fs w !! apk_of argv = Some Directory ->
  main argv w
  = (Raised IsADirectoryError,
     extend w [] [EvExists (apk_of argv); EvZipFile (apk_of argv)]).
Proof.
  intros H. unfold main, bind, os_path_exists, zipfile_ZipFile, ret. simpl.
  rewrite H. simpl. rewrite H. f_equal. same_world.
Qed.

(** Line 9 raises: the file is no archive. *)
Lemma main_not_zip argv w c :
  fs w !! apk_of argv = Some (RegularFile c) ->
  Z.of_nat (length c) < sizeEndCentDir \/ central_directory c = None ->
  main argv w
  = (Raised BadZipFile,
     extend w [] [EvExists (apk_of argv); EvZipFile (apk_of argv)]).
Proof.
  intros H Hbad. unfold main, bind, os_path_exists, zipfile_ZipFile, ret.
  simpl. rewrite H. simpl. rewrite H.
  destruct (Z.ltb_spec (Z.of_nat (length c)) sizeEndCentDir).
  - f_equal. same_world.
  - destruct Hbad as [? | ->]; [lia|]. f_equal. same_world.
Qed.

(** Line 9 succeeds: the script reaches the loop. *)
Lemma main_zip argv w c z :
  fs w !! apk_of argv = Some (RegularFile c) ->
  readable_zip c z ->
  main argv w
  = for_each libraries (check_library (apk_of argv) z)
      (extend w [[VStr "Checking:"; VStr (apk_of argv)]; []]
         [EvExists (apk_of argv); EvZipFile (apk_of argv)]).
Proof.
  intros H (Hlen & Hcd & Herr).
  unfold main, bind, os_path_exists, zipfile_ZipFile, print, ret.
  simpl. rewrite H. simpl. rewrite H.
  destruct (Z.ltb_spec (Z.of_nat (length c)) sizeEndCentDir); [lia|].
  rewrite Hcd, Herr. f_equal. same_world.
Qed.

(** Line 9 raises: the directory is found but cannot be loaded. *)
Lemma main_unusable argv w c z e :
  fs w !! apk_of argv = Some (RegularFile c) ->
  sizeEndCentDir <= Z.of_nat (length c) ->
  central_directory c = Some z ->
  directory_error c = Some e ->
  main argv w
  = (Raised e,
     extend w [] [EvExists (apk_of argv); EvZipFile (apk_of argv)]).
Proof.
  intros H Hlen Hcd Herr.
  unfold main, bind, os_path_exists, zipfile_ZipFile, ret.
  simpl. rewrite H. simpl. rewrite H.
  destruct (Z.ltb_spec (Z.of_nat (length c)) sizeEndCentDir); [lia|].
  rewrite Hcd, Herr. f_equal. same_world.
Qed.

(** ** What every run has in common *)

(** One iteration, whatever the world: it only adds output and read-only
    events, looks up its own name once, and never exits the process. *)
Lemma check_library_shape apk (z : gmap string ZipInfo) name w :
  exists r out t,
    check_library apk z name w = (r, extend w out t) /\
    (forall code, r <> SystemExit code) /\
    Forall read_only t /\
    lookups t = [name].
Proof.
  destruct (z !! name) as [info|] eqn:Hz.
  2: { eexists _, _, _. split; [by apply check_library_missing|].
       repeat split; [done | by repeat constructor]. }
  destruct (fs w !! apk) as [[c|]|] eqn:Hfs.
  - destruct (seek_refusal c (header_offset info)) as [e|] eqn:Hseek.
    { eexists _, _, _.
      split; [by apply (check_library_refused _ _ _ info c e)|].
      repeat split; [done | by repeat constructor]. }
    pose proof (seek_refusal_None_nonneg _ _ Hseek) as Hpos.
    destruct (Z.lt_ge_cases (readable c (header_offset info)) 30).
    + eexists _, _, _.
      split; [by apply (check_library_truncated _ _ _ info c)|].
      repeat split; [done | by repeat constructor].
    + eexists _, _, _.
      split; [by apply (check_library_located _ _ _ info c)|].
      repeat split; [done | by repeat constructor].
  - destruct (local_data_offset_unopened apk name info
                (extend w [] [EvGetinfo name])) as [e He].
    { intros c. simpl. by rewrite Hfs. }
    apply (check_library_raised _ _ _ _ _ _ _ Hz) in He.
    rewrite extend_extend in He.
    eexists _, _, _. split; [exact He|].
    repeat split; [done | by repeat constructor].
  - destruct (local_data_offset_unopened apk name info
                (extend w [] [EvGetinfo name])) as [e He].
    { intros c. simpl. by rewrite Hfs. }
    apply (check_library_raised _ _ _ _ _ _ _ Hz) in He.
    rewrite extend_extend in He.
    eexists _, _, _. split; [exact He|].
    repeat split; [done | by repeat constructor].
Qed.

Lemma lookups_app t1 t2 :
  lookups (t1 ++ t2) = lookups t1 ++ lookups t2.
Proof. apply omap_app. Qed.

(** The loop: the names are looked up in order, all of them when the loop
    runs to its end. *)
Lemma for_each_shape apk (z : gmap string ZipInfo) l w :
  exists r out t,
    for_each l (check_library apk z) w = (r, extend w out t) /\
    (forall code, r <> SystemExit code) /\
    Forall read_only t /\
    lookups t `prefix_of` l /\
    (r = Ok tt -> lookups t = l).
Proof.
  revert w. induction l as [|name l IH]; intros w.
  - exists (Ok tt), [], []. simpl. rewrite extend_nil.
    repeat split; done.
  - destruct (check_library_shape apk z name w)
      as (r1 & out1 & t1 & Hrun & Hexit & Hro & Hlook).
    destruct r1 as [[]|code|e].
    + destruct (IH (extend w out1 t1))
        as (r & out & t & Hrest & Hexit' & Hro' & Hpre & Hall).
      exists r, (out1 ++ out), (t1 ++ t).
      rewrite (for_each_next _ _ _ _ _ Hrun), Hrest, extend_extend.
      rewrite lookups_app, Hlook. simpl.
      repeat split; [done | by apply Forall_app | by apply prefix_cons |].
      intros Hr. by rewrite Hall.
    + by destruct (Hexit code).
    + exists (Raised e), out1, t1.
      rewrite (for_each_raised _ _ _ _ _ _ Hrun), Hlook.
      repeat split; [done | done | | done].
      by apply prefix_cons, prefix_nil.
Qed.

(** The script from the existence check on: every event is read-only, the
    names are looked up in the order of [libraries], and the only exit
    is the [exit(2)] of line 7. *)
Lemma main_shape argv w :
  exists r out t,
    main argv w = (r, extend w out (EvExists (apk_of argv) :: t)) /\
    Forall read_only t /\
    lookups t `prefix_of` libraries /\
    (r = Ok tt -> lookups t = libraries) /\
    (forall code, r = SystemExit code ->
                  code = 2 /\ fs w !! apk_of argv = None) /\
    (fs w !! apk_of argv = None -> r = SystemExit 2).
Proof.
  destruct (fs w !! apk_of argv) as [[c|]|] eqn:Hfs.
  - destruct (Z.lt_ge_cases (Z.of_nat (length c)) sizeEndCentDir) as [Hlen|Hlen].
    { eexists _, _, _. split; [apply (main_not_zip _ _ c); auto|].
      repeat split; try done; [by repeat constructor | apply prefix_nil]. }
    destruct (central_directory c) as [z|] eqn:Hcd.
    2: { eexists _, _, _. split; [apply (main_not_zip _ _ c); auto|].
         repeat split; try done; [by repeat constructor | apply prefix_nil]. }
    destruct (directory_error c) as [e|] eqn:Herr.
    { eexists _, _, _. split; [by apply (main_unusable _ _ c z e)|].
      repeat split; try done; [by repeat constructor | apply prefix_nil]. }
    rewrite (main_zip argv w c z) by done.
    destruct (for_each_shape (apk_of argv) z libraries
                (extend w [[VStr "Checking:"; VStr (apk_of argv)]; []]
                   [EvExists (apk_of argv); EvZipFile (apk_of argv)]))
      as (r & out & t & Hrun & Hexit & Hro & Hpre & Hall).
    rewrite Hrun, extend_extend.
    exists r, ([[VStr "Checking:"; VStr (apk_of argv)]; []] ++ out),
      (EvZipFile (apk_of argv) :: t).
    split; [done|]. split; [by constructor|]. split; [done|].
    split; [done|]. split.
    + intros code ->. by destruct (Hexit code).
    + congruence.
  - eexists _, _, _. split; [by apply main_directory|].
    repeat split; try done; [by repeat constructor | apply prefix_nil].
  - eexists _, _, _. split; [by apply main_missing|].
    repeat split; try done; [apply prefix_nil | congruence].
Qed.

(** ** Runs without an exception, told without the monad *)

Lemma check_library_run apk (z : gmap string ZipInfo) name c w :
  fs w !! apk = Some (RegularFile c) ->
  (forall info, z !! name = Some info ->
                seek_refusal c (header_offset info) = None) ->
  check_library apk z name w
  = (Ok tt, extend w (entry_lines c z name) (entry_events apk z name)).
Proof.
  intros Hfs Hpos. unfold entry_lines, entry_events.
  destruct (z !! name) as [info|] eqn:Hz.
  - specialize (Hpos info eq_refl).
    pose proof (seek_refusal_None_nonneg _ _ Hpos) as Hnonneg.
    destruct (Z.ltb_spec (readable c (header_offset info)) 30).
    + by apply (check_library_truncated _ _ _ info c).
    + by apply (check_library_located _ _ _ info c).
  - by apply check_library_missing.
Qed.

Lemma for_each_run apk (z : gmap string ZipInfo) l c w :
  fs w !! apk = Some (RegularFile c) ->
  offsets_seekable c z l ->
  for_each l (check_library apk z) w
  = (Ok tt,
     extend w (concat (map (entry_lines c z) l))
       (concat (map (entry_events apk z) l))).
Proof.
  revert w. induction l as [|name l IH]; intros w Hfs Hpos.
  - simpl. unfold ret. by rewrite extend_nil.
  - rewrite (for_each_next _ _ _ _ _ (check_library_run apk z name c w Hfs
               (fun info => Hpos name info (list_elem_of_here _ _)))).
    rewrite IH; [by rewrite extend_extend | done |].
    intros n info Hn. apply Hpos. by apply list_elem_of_further.
Qed.

Lemma main_run argv c z w :
  fs w !! apk_of argv = Some (RegularFile c) ->
  readable_zip c z ->
  offsets_seekable c z libraries ->
  main argv w
  = (Ok tt,
     extend w
       ([[VStr "Checking:"; VStr (apk_of argv)]; []]
        ++ concat (map (entry_lines c z) libraries))
       ([EvExists (apk_of argv); EvZipFile (apk_of argv)]
        ++ concat (map (entry_events (apk_of argv) z) libraries))).
Proof.
  intros Hfs Hzip Hpos. rewrite (main_zip argv w c z) by done.
  rewrite (for_each_run _ _ _ c) by done. by rewrite extend_extend.
Qed.

(** ** From the script to the process *)

Lemma python_Ok argv w w' :
  main argv w = (Ok tt, w') -> python argv w = (0, w').
Proof. intros H. unfold python. by rewrite H. Qed.

Lemma python_SystemExit argv w code w' :
  main argv w = (SystemExit code, w') -> python argv w = (code, w').
Proof. intros H. unfold python. by rewrite H. Qed.

Lemma python_Raised argv w e w' :
  main argv w = (Raised e, w') ->
  python argv w
  = (1, mkWorld (fs w') (stdout w') (stderr w' ++ [exn_name e]) (trace w')).
Proof. intros H. unfold python. by rewrite H. Qed.

(** A run on an archive [zipfile] accepts, with headers that can be
    sought: status 0, and on standard output the heading followed by the
    [entry_lines] of each library in turn. *)
Lemma python_run argv c z w :
  fs w !! apk_of argv = Some (RegularFile c) ->
  readable_zip c z ->
  offsets_seekable c z libraries ->
  python argv w
  = (0,
     extend w
       ([[VStr "Checking:"; VStr (apk_of argv)]; []]
        ++ concat (map (entry_lines c z) libraries))
       ([EvExists (apk_of argv); EvZipFile (apk_of argv)]
        ++ concat (map (entry_events (apk_of argv) z) libraries))).
Proof. intros Hfs Hzip Hpos. by apply python_Ok, main_run. Qed.

(** ** The claims of the specification *)

(** C1. For an entry found in the central directory whose local header is
    fully readable (the seek succeeds and the read returns 30 bytes), the
    data offset the script computes and prints is
    [header_offset + 30 + filename_length + extra_length], where the two
    lengths are the 2-byte little-endian unsigned integers at offsets 26
    and 28 of the header that starts at [header_offset] in the archive.
    The report with this offset is the entry's part of the output of a
    whole run ([python_run]). *)
Theorem C1_data_offset apk (z : gmap string ZipInfo) name info c w :
  fs w !! apk = Some (RegularFile c) ->
  z !! name = Some info ->
  0 <= header_offset info ->
  length (bytes_at c (header_offset info) 30) = 30%nat ->
  let h := header_offset info in
  let d := h + 30 + le_uint (bytes_at c (h + 26) 2)
             + le_uint (bytes_at c (h + 28) 2) in
  fst (local_data_offset apk name info w) = Ok (Some d) /\
  check_library apk z name w
  = (Ok tt, extend w (report name info d)
              (EvGetinfo name :: header_read apk info)) /\
  report name info d !! 3%nat = Some [VStr "  data_offset  :"; VInt d] /\
  entry_lines c z name = report name info d.
Proof.
  intros Hfs Hz Hpos Hlen h d.
  assert (Hfull : 30 <= readable c h).
  { unfold readable. rewrite length_bytes_at in Hlen.
    rewrite length_drop. subst h. lia. }
  split; [|split; [|split; [done|]]].
  - by rewrite (local_data_offset_located apk name info c w).
  - by apply check_library_located.
  - unfold entry_lines. rewrite Hz. simpl. fold h.
    by destruct (Z.ltb_spec (readable c h) 30); [lia|].
Qed.

(** C2. When no file exists at the resolved path, the script prints a
    message that ends with the attempted path, prints the usage text and
    exits with status 2; the only thing it asked of the file system is the
    existence check, so no entry was looked up. *)
Theorem C2_missing_archive argv w :
  fs w !! apk_of argv = None ->
  python argv w
  = (2, extend w [[VStr "APK not found at"; VStr (apk_of argv)];
                  [VStr usage]]
          [EvExists (apk_of argv)]) /\
  print_text [VStr "APK not found at"; VStr (apk_of argv)]
  = "APK not found at " +:+ apk_of argv /\
  print_text [VStr usage]
  = String "010"
      "Usage: python tools/check_apk_alignment.py [path/to/app.apk]" /\
  lookups (trace (final argv w)) = lookups (trace w).
Proof.
  intros Hfs.
  assert (Hrun := python_SystemExit _ _ _ _ (main_missing argv w Hfs)).
  split; [done|]. split; [done|]. split; [done|].
  unfold final. rewrite Hrun. simpl. rewrite lookups_app. simpl.
  by rewrite app_nil_r.
Qed.

(** C3. A name absent from the central directory, whatever else the
    directory holds, makes the iteration print [name NOT FOUND], end
    normally and hand over to the remaining names; on an existing archive
    that lacks both libraries the script prints NOT FOUND for each of
    them and the process exits with status 0. *)
Theorem C3_not_found :
  (forall apk (z : gmap string ZipInfo) name rest w,
     z !! name = None ->
     check_library apk z name w
     = (Ok tt, extend w [[VStr name; VStr "NOT FOUND"]] [EvGetinfo name]) /\
     for_each (name :: rest) (check_library apk z) w
     = for_each rest (check_library apk z)
         (extend w [[VStr name; VStr "NOT FOUND"]] [EvGetinfo name])) /\
  (forall argv w c z,
     fs w !! apk_of argv = Some (RegularFile c) ->
     readable_zip c z ->
     (forall n, n ∈ libraries -> z !! n = None) ->
     python argv w
     = (0, extend w
             [[VStr "Checking:"; VStr (apk_of argv)]; [];
              [VStr "lib/arm64-v8a/liboboe.so"; VStr "NOT FOUND"];
              [VStr "lib/arm64-v8a/liboboe_synth.so"; VStr "NOT FOUND"]]
             [EvExists (apk_of argv); EvZipFile (apk_of argv);
              EvGetinfo "lib/arm64-v8a/liboboe.so";
              EvGetinfo "lib/arm64-v8a/liboboe_synth.so"])).
Proof.
  split.
  - intros apk z name rest w Hname.
    assert (Hrun := check_library_missing apk z name w Hname).
    split; [done|]. by apply for_each_next.
  - intros argv w c z Hfs Hzip Hnone.
    assert (Hpos : offsets_seekable c z libraries).
    { intros n i Hn Hz. by rewrite (Hnone n Hn) in Hz. }
    rewrite (python_run argv c z) by done.
    unfold entry_lines, entry_events, libraries. simpl.
    by rewrite !Hnone by (unfold libraries; set_solver).
Qed.

(** C4. The script does not report a read failure when [f.seek] refuses
    the header offset: the seek of line 21 comes before the guard of line
    23 and nothing catches what it raises, so the iteration ends in that
    exception, with the file closed, and the names after it are never
    reached. *)
Theorem C4_unseekable_header apk (z : gmap string ZipInfo) name info c e rest w :
  fs w !! apk = Some (RegularFile c) ->
  z !! name = Some info ->
  seek_refusal c (header_offset info) = Some e ->
  check_library apk z name w
  = (Raised e,
     extend w [] [EvGetinfo name; EvOpen apk mode_rb;
                  EvSeek apk (header_offset info); EvClose apk]) /\
  for_each (name :: rest) (check_library apk z) w
  = (Raised e,
     extend w [] [EvGetinfo name; EvOpen apk mode_rb;
                  EvSeek apk (header_offset info); EvClose apk]).
Proof.
  intros Hfs Hz Hseek.
  assert (Hrun := check_library_refused apk z name info c e w Hfs Hz Hseek).
  split; [done|]. by apply for_each_raised.
Qed.



(** C6. Whenever the script computes a data offset, the offset is not
    negative and the value it prints as [data_offset % 16384] is
    [data_offset - 16384 * (data_offset // 16384)], a number from 0 to
    16383. *)
Theorem C6_modulo apk name info w d w' :
  local_data_offset apk name info w = (Ok (Some d), w') ->
  0 <= d /\
  d mod 16384 = d - 16384 * (d / 16384) /\
  0 <= d mod 16384 < 16384 /\
  report name info d !! 4%nat
  = Some [VStr "  data_offset % 16384 ="; VInt (d - 16384 * (d / 16384))].
Proof.
  intros Hrun.
  destruct (local_data_offset_computed _ _ _ _ _ _ Hrun)
    as (c & _ & Hpos & _ & ->).
  pose proof (le_uint_nonneg (bytes_at c (header_offset info + 26) 2)).
  pose proof (le_uint_nonneg (bytes_at c (header_offset info + 28) 2)).
  unfold filename_length, extra_length, header_field.
  set (d := header_offset info + 30 + _ + _).
  assert (Hmod : d mod 16384 = d - 16384 * (d / 16384))
    by (apply Z.mod_eq; lia).
  split; [lia|]. split; [done|]. split; [apply Z.mod_pos_bound; lia|].
  simpl. by rewrite Hmod.
Qed.

(** C7. For an entry whose local header has a zero extra-field length,
    [data_offset - header_offset - 30] is the header's filename-length
    field. *)
Theorem C7_round_trip apk name info c w d w' :
  fs w !! apk = Some (RegularFile c) ->
  local_data_offset apk name info w = (Ok (Some d), w') ->
  extra_length c (header_offset info) = 0 ->
  d - header_offset info - 30 = filename_length c (header_offset info).
Proof.
  intros Hfs Hrun Hextra.
  destruct (local_data_offset_computed _ _ _ _ _ _ Hrun)
    as (c' & Hfs' & _ & _ & ->).
  assert (c' = c) as -> by congruence. lia.
Qed.

(** C8, amended. No run changes the file system: the files are the same
    after the run as before, every event of the run is read-only (an
    existence test, the opening of the archive by [zipfile], a lookup, or
    [open] in mode ['rb'] with its seek, read and close), and what the
    script prints is added to standard output.  Standard error is as it
    was after every run that does not end in an exception. *)
Theorem C8_read_only argv w :
  fs (final argv w) = fs w /\
  (exists t, trace (final argv w) = trace w ++ t /\ Forall read_only t) /\
  (exists out, stdout (final argv w) = stdout w ++ out) /\
  ((forall e, fst (main argv w) <> Raised e) ->
   stderr (final argv w) = stderr w).
Proof.
  destruct (main_shape argv w) as (r & out & t & Hrun & Hro & _).
  unfold final, python. rewrite Hrun.
  destruct r as [[]|code|e]; simpl;
    (split; [done|]; split; [|split; [by exists out |]]);
    try (exists (EvExists (apk_of argv) :: t); by split; [|constructor]);
    try done.
  intros Hnot. by destruct (Hnot e).
Qed.



(** C10. When the path names a regular file that [zipfile] does not
    accept, line 9 raises [BadZipFile] and nobody catches it: nothing has
    been printed yet, no entry is looked up, and the process ends with
    status 1, which is neither 0 nor 2. *)
Theorem C10_not_a_zip argv w c :
  fs w !! apk_of argv = Some (RegularFile c) ->
  Z.of_nat (length c) < sizeEndCentDir \/ central_directory c = None ->
  main argv w
  = (Raised BadZipFile,
     extend w [] [EvExists (apk_of argv); EvZipFile (apk_of argv)]) /\
  stdout (final argv w) = stdout w /\
  exit_status argv w = 1 /\
  exit_status argv w <> 0 /\
  exit_status argv w <> 2.
Proof.
  intros Hfs Hbad.
  assert (Hrun := main_not_zip argv w c Hfs Hbad).
  unfold exit_status, final. rewrite (python_Raised _ _ _ _ Hrun). simpl.
  by rewrite app_nil_r.
Qed.

(** ** The script follows [run] *)

Lemma check_library_iteration apk (z : gmap string ZipInfo) name c w :
  fs w !! apk = Some (RegularFile c) ->
  exists r out t,
    check_library apk z name w = (r, extend w out t) /\
    iteration apk c z name r out t.
Proof.
  intros Hfs. destruct (z !! name) as [info|] eqn:Hz.
  2: { eexists _, _, _. split; [by apply check_library_missing|].
       by constructor. }
  destruct (seek_refusal c (header_offset info)) as [e|] eqn:Hseek.
  { eexists _, _, _.
    split; [by apply (check_library_refused _ _ _ info c e)|].
    by apply (iteration_unseekable _ _ _ _ info e). }
  pose proof (seek_refusal_None_nonneg _ _ Hseek) as Hpos.
  destruct (Z.lt_ge_cases (readable c (header_offset info)) 30).
  - eexists _, _, _. split; [by apply (check_library_truncated _ _ _ info c)|].
    by apply iteration_truncated.
  - eexists _, _, _. split; [by apply (check_library_located _ _ _ info c)|].
    by apply iteration_located.
Qed.

Lemma for_each_iterations apk (z : gmap string ZipInfo) l c w :
  fs w !! apk = Some (RegularFile c) ->
  exists r out t,
    for_each l (check_library apk z) w = (r, extend w out t) /\
    iterations apk c z l r out t.
Proof.
  revert w. induction l as [|name l IH]; intros w Hfs.
  - exists (Ok tt), [], []. simpl. rewrite extend_nil. split; [done|constructor].
  - destruct (check_library_iteration apk z name c w Hfs)
      as (r1 & out1 & t1 & Hrun & Hiter).
    destruct r1 as [[]|code|e].
    + destruct (IH (extend w out1 t1) Hfs) as (r & out & t & Hrest & Hiters).
      exists r, (out1 ++ out), (t1 ++ t).
      rewrite (for_each_next _ _ _ _ _ Hrun), Hrest, extend_extend.
      split; [done|]. by eapply iterations_next.
    + inversion Hiter.
    + exists (Raised e), out1, t1.
      rewrite (for_each_raised _ _ _ _ _ _ Hrun).
      split; [done|]. by apply iterations_raised.
Qed.

Lemma main_follows_run argv w :
  exists r out t,
    main argv w = (r, extend w out t) /\ run argv w r out t.
Proof.
  destruct (fs w !! apk_of argv) as [[c|]|] eqn:Hfs.
  - destruct (Z.lt_ge_cases (Z.of_nat (length c)) sizeEndCentDir) as [Hlen|Hlen].
    { eexists _, _, _. split; [apply (main_not_zip _ _ c); auto|].
      apply (run_not_zip _ _ c); auto. }
    destruct (central_directory c) as [z|] eqn:Hcd.
    2: { eexists _, _, _. split; [apply (main_not_zip _ _ c); auto|].
         apply (run_not_zip _ _ c); auto. }
    destruct (directory_error c) as [e|] eqn:Herr.
    { eexists _, _, _. split; [by apply (main_unusable _ _ c z e)|].
      by apply (run_unusable _ _ c z e). }
    rewrite (main_zip argv w c z) by done.
    destruct (for_each_iterations (apk_of argv) z libraries c
                (extend w [[VStr "Checking:"; VStr (apk_of argv)]; []]
                   [EvExists (apk_of argv); EvZipFile (apk_of argv)]) Hfs)
      as (r & out & t & Hrun & Hiters).
    rewrite Hrun, extend_extend.
    eexists _, _, _. split; [done|]. by apply (run_loop _ _ c z).
  - eexists _, _, _. split; [by apply main_directory|]. by constructor.
  - eexists _, _, _. split; [by apply main_missing|]. by constructor.
Qed.

(** ** More of what the script does *)



(** X2. A path that names a directory passes the existence check of line
    4, and line 9 then raises [IsADirectoryError]: the process ends with
    status 1, having printed nothing. *)
Theorem X2_directory argv w :
  fs w !! apk_of argv = Some Directory ->
  python argv w
  = (1, mkWorld (fs w) (stdout w) (stderr w ++ ["IsADirectoryError"])
          (trace w ++ [EvExists (apk_of argv); EvZipFile (apk_of argv)])).
Proof.
  intros Hfs. rewrite (python_Raised _ _ _ _ (main_directory argv w Hfs)).
  simpl. by rewrite app_nil_r.
Qed.


(** *** Exceptions that escape *)




(** *** Files opened and closed *)

Lemma opened_app t1 t2 : opened (t1 ++ t2) = opened t1 ++ opened t2.
Proof. apply omap_app. Qed.

Lemma closed_app t1 t2 : closed (t1 ++ t2) = closed t1 ++ closed t2.
Proof. apply omap_app. Qed.

Lemma iteration_closes apk c (z : gmap string ZipInfo) name r out t :
  iteration apk c z name r out t -> opened t = closed t.
Proof. by inversion 1. Qed.

Lemma iterations_close apk c (z : gmap string ZipInfo) l r out t :
  iterations apk c z l r out t -> opened t = closed t.
Proof.
  induction 1 as [|name rest out t r out' t' Hit _ IH|name rest e out t Hit].
  - done.
  - rewrite opened_app, closed_app, IH.
    by rewrite (iteration_closes _ _ _ _ _ _ _ Hit).
  - by apply iteration_closes in Hit.
Qed.

(** X5. Whatever way a run goes - to its end, through a [continue], or
    out by an exception - every file the script opened with [open] has
    been closed again, in the same order. *)
Theorem X5_opened_files_are_closed argv w :
  exists t,
    trace (final argv w) = trace w ++ t /\ opened t = closed t.
Proof.
  destruct (main_follows_run argv w) as (r & out & t & Hrun & Hway).
  exists t. split.
  - unfold final, python. rewrite Hrun. by destruct r as [[]| |].
  - inversion Hway as [ | | | | c z r' out' t' Hfs Hzip Hiters ]; subst;
      try done.
    rewrite opened_app, closed_app.
    by rewrite (iterations_close _ _ _ _ _ _ _ Hiters).
Qed.

(** *** The one path *)

Lemma iteration_about apk c (z : gmap string ZipInfo) name r out t :
  iteration apk c z name r out t -> Forall (about apk) t.
Proof.
  inversion 1; subst; repeat constructor; by (left + right).
Qed.

Lemma iterations_about apk c (z : gmap string ZipInfo) l r out t :
  iterations apk c z l r out t -> Forall (about apk) t.
Proof.
  induction 1 as [|name rest out t r out' t' Hit _ IH|name rest e out t Hit].
  - constructor.
  - apply Forall_app. split; [by eapply iteration_about | done].
  - by eapply iteration_about.
Qed.

(** X8. The only path the script ever asks the file system about is the
    archive path: the argument when there is one, the default otherwise. *)
Theorem X8_one_path argv w :
  exists t,
    trace (final argv w) = trace w ++ t /\
    Forall (fun e => path_of e = None \/ path_of e = Some (apk_of argv)) t.
Proof.
  destruct (main_follows_run argv w) as (r & out & t & Hrun & Hway).
  exists t. split.
  - unfold final, python. rewrite Hrun. by destruct r as [[]| |].
  - inversion Hway as [ | | | | c z r' out' t' Hfs Hzip Hiters ]; subst;
      try (repeat constructor; by right).
    apply Forall_app. split; [repeat constructor; by right|].
    by apply (iterations_about _ _ _ _ _ _ _ Hiters).
Qed.

(** *** The data offset *)

Lemma le_uint_two_bytes (bs : list byte) :
  (length bs <= 2)%nat -> le_uint bs <= 65535.
Proof.
  destruct bs as [|lo [|hi [|? ?]]]; simpl; intros Hlen; try lia.
  - pose proof (to_N_byte_bound lo). lia.
  - pose proof (to_N_byte_bound lo). pose proof (to_N_byte_bound hi). lia.
Qed.

Lemma header_field_two_bytes (c : list byte) (h off : Z) :
  0 <= header_field c h off 2 <= 65535.
Proof.
  unfold header_field. split; [apply le_uint_nonneg|].
  apply le_uint_two_bytes. rewrite length_bytes_at. lia.
Qed.

(** X6. A computed data offset lies at least 30 bytes and at most
    30 + 2 * 65535 bytes after the header offset: the two lengths are
    16-bit fields. *)
Theorem X6_data_offset_bounds apk name info w d w' :
  local_data_offset apk name info w = (Ok (Some d), w') ->
  header_offset info + 30 <= d <= header_offset info + 131100.
Proof.
  intros Hrun.
  destruct (local_data_offset_computed _ _ _ _ _ _ Hrun)
    as (c & _ & _ & _ & ->).
  pose proof (header_field_two_bytes c (header_offset info) 26).
  pose proof (header_field_two_bytes c (header_offset info) 28).
  unfold filename_length, extra_length. lia.
Qed.

(** X7. The value reported as [data_offset % 16384] is 0 exactly when
    the data of the library starts on a multiple of 16384, that is, when
    the library is aligned. *)
Theorem X7_zero_means_aligned apk name info w d w' :
  local_data_offset apk name info w = (Ok (Some d), w') ->
  report name info d !! 4%nat
  = Some [VStr "  data_offset % 16384 ="; VInt 0]
  <-> exists k, 0 <= k /\ d = 16384 * k.
Proof.
  intros Hrun.
  destruct (local_data_offset_computed _ _ _ _ _ _ Hrun)
    as (c & _ & Hpos & _ & Hd).
  pose proof (header_field_two_bytes c (header_offset info) 26).
  pose proof (header_field_two_bytes c (header_offset info) 28).
  unfold filename_length, extra_length in Hd.
  assert (0 <= d) by lia.
  simpl. split.
  - intros Hline. assert (Hmod : d mod 16384 = 0) by congruence.
    exists (d / 16384). split; [apply Z.div_pos; lia|].
    rewrite (Z.div_mod d 16384) at 1 by lia. lia.
  - intros (k & _ & ->).
    by rewrite (Z.mul_comm 16384 k), Z.mod_mul.
Qed.

(** The four bytes of the two length fields. *)
Lemma length_fields_of_four_bytes (c : list byte) (h : Z) :
  0 <= h ->
  filename_length c h = le_uint (take 2 (bytes_at c (h + 26) 4)) /\
  extra_length c h = le_uint (take 2 (drop 2 (bytes_at c (h + 26) 4))).
Proof.
  intros Hh. unfold filename_length, extra_length, header_field, bytes_at.
  change (Z.to_nat 2) with 2%nat. change (Z.to_nat 4) with 4%nat.
  split.
  - by rewrite take_take.
  - rewrite <- (take_drop_commute _ 2 2), take_take, drop_drop.
    by replace (Z.to_nat (h + 28)) with (Z.to_nat (h + 26) + 2)%nat by lia.
Qed.

(** X9. The data offset depends on the archive only through the four
    bytes at offsets 26 to 29 of the local header: two archives that have a
    whole header at the offset and agree on these bytes give the same
    offset, whatever the signature and the other fields of the header
    are. *)
Theorem X9_only_the_length_fields apk name info c c' w w' :
  fs w !! apk = Some (RegularFile c) ->
  fs w' !! apk = Some (RegularFile c') ->
  0 <= header_offset info ->
  30 <= readable c (header_offset info) ->
  30 <= readable c' (header_offset info) ->
  bytes_at c (header_offset info + 26) 4
  = bytes_at c' (header_offset info + 26) 4 ->
  fst (local_data_offset apk name info w)
  = fst (local_data_offset apk name info w').
Proof.
  intros Hfs Hfs' Hpos Hfull Hfull' Hbytes.
  rewrite (local_data_offset_located apk name info c w) by done.
  rewrite (local_data_offset_located apk name info c' w') by done.
  destruct (length_fields_of_four_bytes c _ Hpos) as [-> ->].
  destruct (length_fields_of_four_bytes c' _ Hpos) as [-> ->].
  by rewrite Hbytes.
Qed.



(** *** Exit status 0 *)



End Script.

(** ** Sample runs *)

(** The text of a whole run on [sample_archive]. *)
Example sample_run :
  map print_text
    (stdout (final sample_seek_limit (zipfile_of sample_directory)
               no_directory_error
               ["tools/check_apk_alignment.py"] (world_with sample_archive)))
  = ["Checking: app/build/outputs/apk/debug/app-debug.apk";
     "";
     "lib/arm64-v8a/liboboe.so";
     "  compress_type: 0 (0 = stored/uncompressed)";
     "  header_offset: 0";
     "  data_offset  : 56";
     "  data_offset % 16384 = 56";
     "  file_size    : 8";
     "  compress_size: 8";
     "";
     "lib/arm64-v8a/liboboe_synth.so";
     "  compress_type: 0 (0 = stored/uncompressed)";
     "  header_offset: 64";
     "  data_offset  : 124";
     "  data_offset % 16384 = 124";
     "  file_size    : 4";
     "  compress_size: 4";
     ""].
Proof. vm_compute. reflexivity. Qed.

(** A directory that records a header before the start of the file: the
    seek of line 21 raises, nobody catches it, and the second name is
    never looked up. *)
Example negative_offset_run :
  python sample_seek_limit
    (zipfile_of {[ "lib/arm64-v8a/liboboe.so" := mkZipInfo 0 (-4) 8 8 ]})
    no_directory_error
    ["tools/check_apk_alignment.py"] (world_with sample_archive)
  = (1,
     mkWorld (fs (world_with sample_archive))
       [[VStr "Checking:"; VStr default_apk]; []]
       ["OSError"]
       [EvExists default_apk; EvZipFile default_apk;
        EvGetinfo "lib/arm64-v8a/liboboe.so"; EvOpen default_apk mode_rb;
        EvSeek default_apk (-4); EvClose default_apk]).
Proof. vm_compute. reflexivity. Qed.

(** A directory that records a header at 2^63: the seek raises
    [ValueError] before anything is read. *)
Example huge_offset_run :
  python sample_seek_limit (zipfile_of huge_directory) no_directory_error
    ["tools/check_apk_alignment.py"] (world_with sample_archive)
  = (1,
     mkWorld (fs (world_with sample_archive))
       [[VStr "Checking:"; VStr default_apk]; []]
       ["ValueError"]
       [EvExists default_apk; EvZipFile default_apk;
        EvGetinfo "lib/arm64-v8a/liboboe.so"; EvOpen default_apk mode_rb;
        EvSeek default_apk (2 ^ 63); EvClose default_apk]).
Proof. vm_compute. reflexivity. Qed.

(** A header offset past the end of the file and within the limit of the
    file system is sought, and the read finds nothing. *)
Example past_the_end_run :
  map print_text
    (stdout (final sample_seek_limit
               (zipfile_of {[ "lib/arm64-v8a/liboboe.so"
                              := mkZipInfo 0 100000 8 8 ]})
               no_directory_error
               ["tools/check_apk_alignment.py"] (world_with sample_archive)))
  = ["Checking: app/build/outputs/apk/debug/app-debug.apk";
     "";
     "lib/arm64-v8a/liboboe.so failed to read local header";
     "lib/arm64-v8a/liboboe_synth.so NOT FOUND"].
Proof. vm_compute. reflexivity. Qed.

(** ** The claims on the sample archives *)


Lemma C1_data_offset_witness :
  fst (local_data_offset sample_seek_limit default_apk
         "lib/arm64-v8a/liboboe.so" info_oboe (world_with sample_archive))
  = Ok (Some 56) /\
  fst (local_data_offset sample_seek_limit default_apk
         "lib/arm64-v8a/liboboe_synth.so" info_synth
         (world_with sample_archive))
  = Ok (Some 124).
Proof.
  split.
  - apply (C1_data_offset sample_seek_limit default_apk sample_directory
             "lib/arm64-v8a/liboboe.so" info_oboe sample_archive
             (world_with sample_archive));
      [vm_compute; reflexivity | vm_compute; reflexivity
      | cbn; lia | vm_compute; reflexivity].
  - apply (C1_data_offset sample_seek_limit default_apk sample_directory
             "lib/arm64-v8a/liboboe_synth.so" info_synth sample_archive
             (world_with sample_archive));
      [vm_compute; reflexivity | vm_compute; reflexivity
      | cbn; lia | vm_compute; reflexivity].
Defined.

Lemma C2_missing_archive_witness :
  exit_status sample_seek_limit (zipfile_of sample_directory)
    no_directory_error
    ["tools/check_apk_alignment.py"; "missing.apk"] (world_with sample_archive)
  = 2.
Proof.
  unfold exit_status.
  rewrite (proj1 (C2_missing_archive sample_seek_limit
                    (zipfile_of sample_directory) no_directory_error
                    ["tools/check_apk_alignment.py"; "missing.apk"]
                    (world_with sample_archive)
                    ltac:(vm_compute; reflexivity))).
  reflexivity.
Defined.

(** On a directory that has only the second library, the first is
    reported NOT FOUND and the loop goes on to the second; on the empty
    archive the process exits with status 0. *)
Lemma C3_not_found_witness :
  for_each ["lib/arm64-v8a/liboboe.so"; "lib/arm64-v8a/liboboe_synth.so"]
    (check_library sample_seek_limit default_apk synth_directory)
    (world_with sample_archive)
  = for_each ["lib/arm64-v8a/liboboe_synth.so"]
      (check_library sample_seek_limit default_apk synth_directory)
      (extend (world_with sample_archive)
         [[VStr "lib/arm64-v8a/liboboe.so"; VStr "NOT FOUND"]]
         [EvGetinfo "lib/arm64-v8a/liboboe.so"]) /\
  exit_status sample_seek_limit (zipfile_of ∅) no_directory_error
    ["tools/check_apk_alignment.py"] (world_with empty_archive)
  = 0.
Proof.
  split.
  - apply (proj1 (C3_not_found sample_seek_limit (zipfile_of ∅)
                    no_directory_error)).
    vm_compute; reflexivity.
  - unfold exit_status.
    rewrite (proj2 (C3_not_found sample_seek_limit (zipfile_of ∅)
                      no_directory_error)
               ["tools/check_apk_alignment.py"] (world_with empty_archive)
               empty_archive ∅
               ltac:(vm_compute; reflexivity)
               ltac:(split; [vm_compute; discriminate | split; reflexivity])
               ltac:(intros; apply lookup_empty)).
    reflexivity.
Defined.

(** The header offset -4 of [shifted_directory]: the iteration ends in
    [OSError]. *)
Lemma C4_unseekable_header_witness :
  check_library sample_seek_limit default_apk shifted_directory
    "lib/arm64-v8a/liboboe_synth.so" (world_with sample_archive)
  = (Raised OSError_EINVAL,
     extend (world_with sample_archive) []
       [EvGetinfo "lib/arm64-v8a/liboboe_synth.so";
        EvOpen default_apk mode_rb; EvSeek default_apk (-4);
        EvClose default_apk]).
Proof.
  apply (C4_unseekable_header sample_seek_limit default_apk shifted_directory
           "lib/arm64-v8a/liboboe_synth.so" info_before sample_archive
           OSError_EINVAL [] (world_with sample_archive));
    vm_compute; reflexivity.
Defined.



Lemma C6_modulo_witness :
  0 <= 56 /\ 56 mod 16384 = 56 - 16384 * (56 / 16384).
Proof.
  destruct (C6_modulo sample_seek_limit default_apk
              "lib/arm64-v8a/liboboe.so" info_oboe
              (world_with sample_archive) 56
              (extend (world_with sample_archive) []
                 (header_read default_apk info_oboe))
              ltac:(vm_compute; reflexivity))
    as (Hnonneg & Hmod & _).
  exact (conj Hnonneg Hmod).
Defined.

Lemma C7_round_trip_witness :
  124 - header_offset info_synth - 30
  = filename_length sample_archive (header_offset info_synth).
Proof.
  apply (C7_round_trip sample_seek_limit default_apk
           "lib/arm64-v8a/liboboe_synth.so"
           info_synth sample_archive (world_with sample_archive) 124
           (extend (world_with sample_archive) []
              (header_read default_apk info_synth)));
    vm_compute; reflexivity.
Defined.

(** C8 as the specification states it fails: on an empty file at the
    default path the run ends in an exception and the traceback is
    written to standard error. *)
Lemma C8_counterexample :
  ~ (forall (limit : Z)
            (zipfile : list byte -> option (gmap string ZipInfo))
            (errors : list byte -> option exn) argv w,
       fs (final limit zipfile errors argv w) = fs w /\
       stderr (final limit zipfile errors argv w) = stderr w).
Proof.
  intros H.
  destruct (H sample_seek_limit (zipfile_of sample_directory)
              no_directory_error ["tools/check_apk_alignment.py"]
              (world_with [])) as [_ Hstderr].
  vm_compute in Hstderr. discriminate.
Qed.


Lemma C10_not_a_zip_witness :
  exit_status sample_seek_limit (zipfile_of sample_directory)
    no_directory_error ["tools/check_apk_alignment.py"] (world_with [])
  = 1.
Proof.
  apply (C10_not_a_zip sample_seek_limit (zipfile_of sample_directory)
           no_directory_error
           ["tools/check_apk_alignment.py"] (world_with []) []).
  - vm_compute; reflexivity.
  - left. vm_compute; reflexivity.
Defined.

(** ** The further properties on the sample archives *)


Lemma X2_directory_witness :
  fst (python sample_seek_limit (zipfile_of sample_directory)
         no_directory_error ["tools/check_apk_alignment.py"] directory_world)
  = 1.
Proof.
  rewrite (X2_directory sample_seek_limit (zipfile_of sample_directory)
             no_directory_error
             ["tools/check_apk_alignment.py"] directory_world
             ltac:(vm_compute; reflexivity)).
  reflexivity.
Defined.



Lemma X6_data_offset_bounds_witness :
  header_offset info_oboe + 30 <= 56 <= header_offset info_oboe + 131100.
Proof.
  apply (X6_data_offset_bounds sample_seek_limit default_apk
           "lib/arm64-v8a/liboboe.so"
           info_oboe (world_with sample_archive) 56
           (extend (world_with sample_archive) []
              (header_read default_apk info_oboe))).
  vm_compute. reflexivity.
Defined.

Lemma X7_zero_means_aligned_witness :
  report "lib/arm64-v8a/liboboe.so" info_aligned 16384 !! 4%nat
  = Some [VStr "  data_offset % 16384 ="; VInt 0].
Proof.
  apply (X7_zero_means_aligned sample_seek_limit default_apk
           "lib/arm64-v8a/liboboe.so"
           info_aligned (world_with aligned_archive) 16384
           (extend (world_with aligned_archive) []
              (header_read default_apk info_aligned))
           ltac:(vm_compute; reflexivity)).
  exists 1. split; [lia | reflexivity].
Defined.

Lemma X9_only_the_length_fields_witness :
  fst (local_data_offset sample_seek_limit default_apk
         "lib/arm64-v8a/liboboe.so" info_oboe (world_with sample_archive))
  = fst (local_data_offset sample_seek_limit default_apk
           "lib/arm64-v8a/liboboe.so" info_oboe (world_with wiped_archive)).
Proof.
  apply (X9_only_the_length_fields sample_seek_limit default_apk
           "lib/arm64-v8a/liboboe.so"
           info_oboe sample_archive wiped_archive);
    try (vm_compute; reflexivity); vm_compute; discriminate.
Defined.


